(** * DDM (Drift Detection Method), creme/drift/ddm.py

    Shallow embedding of the class [DDM] of [creme.drift].  Python floats are
    modelled by real numbers [R]; the value [float("inf")] that the three
    minima are reset to is the extra constructor [PInf] of [xR].  Python ints
    ([sample_count], [min_instances]) are [Z]; an attribute that Python sets to
    [None] in [__init__] and that [reset] does not touch is an [option]. *)

From Stdlib Require Import Reals Lra Lia ZArith List.
Import ListNotations.
Open Scope R_scope.

(** ** Numbers *)

(** A float that is finite or [+inf]. *)
Inductive xR : Type :=
| Fin (r : R)
| PInf.

(** Python's [a < b] and [a <= b] on finite floats. *)
Definition R_ltb (a b : R) : bool := if Rlt_dec a b then true else false.
Definition R_leb (a b : R) : bool := if Rle_dec a b then true else false.

(** [v <= m] for a finite [v]: every finite float is [<= inf]. *)
Definition le_x (v : R) (m : xR) : bool :=
  match m with
  | Fin r => R_leb v r
  | PInf => true
  end.

(** [v > pmin + level * smin] for a finite [v], with IEEE arithmetic on the
    infinite cases: [level * inf] is [inf], [nan] or [-inf] as [level] is
    positive, zero or negative, [inf + x] is [inf] or [nan], and a finite [v]
    is greater than neither [inf] nor [nan] but is greater than [-inf]. *)
Definition gt_thr (v : R) (pmin : xR) (level : R) (smin : xR) : bool :=
  match pmin, smin with
  | Fin a, Fin b => R_ltb (a + level * b) v
  | Fin _, PInf => R_ltb level 0
  | PInf, _ => false
  end.

(** [np.sqrt]: agrees with the real square root on non-negative arguments
    (on a negative argument NumPy returns [nan], which is not represented;
    the statements that depend on it assume observations in {0, 1}, for which
    the argument is non-negative, see [C9]). *)
Definition np_sqrt (x : R) : R := sqrt x.

(** ** Detector state *)

(** The attributes of a [DDM] object, with the two flags of its base class
    [DriftDetector] ([_in_concept_change], [_in_warning_zone]). *)
Record DDM : Type := mkDDM {
  in_concept_change : bool;
  in_warning_zone : bool;
  sample_count : Z;
  miss_prob : R;
  miss_std : R;
  miss_prob_sd_min : xR;
  miss_prob_min : xR;
  miss_sd_min : xR;
  min_instances : Z;
  warning_level : R;
  out_control_level : R;
  estimation : option R;
  delay : option Z
}.

(** Modelled from the spec: [DriftDetector.reset] of [creme.base], which is not
    in the sources.  The spec (sections 3, 4.1 and 6) has the base contract
    carry the drift and warning flags and [reset] reinitialise the detector;
    the base reset clears both flags. *)
Definition base_reset (d : DDM) : DDM :=
  {| in_concept_change := false;
     in_warning_zone := false;
     sample_count := sample_count d;
     miss_prob := miss_prob d;
     miss_std := miss_std d;
     miss_prob_sd_min := miss_prob_sd_min d;
     miss_prob_min := miss_prob_min d;
     miss_sd_min := miss_sd_min d;
     min_instances := min_instances d;
     warning_level := warning_level d;
     out_control_level := out_control_level d;
     estimation := estimation d;
     delay := delay d |}.

(** [DDM.reset] (lines 94-106). *)
Definition reset (self : DDM) : DDM :=
  let self := base_reset self in
  {| in_concept_change := in_concept_change self;
     in_warning_zone := in_warning_zone self;
     sample_count := 1%Z;
     miss_prob := 1;
     miss_std := 0;
     miss_prob_sd_min := PInf;
     miss_prob_min := PInf;
     miss_sd_min := PInf;
     min_instances := min_instances self;
     warning_level := warning_level self;
     out_control_level := out_control_level self;
     estimation := estimation self;
     delay := delay self |}.

(** [DDM.__init__] (lines 79-92): the statistics are [None] until [reset]
    overwrites them (any placeholder does); [estimation] and [delay] stay
    [None]; the base flags are read only after [reset] has set them. *)
Definition ddm_new (min_num_instances : Z) (warning_level out_control_level : R)
  : DDM :=
  reset {| in_concept_change := false;
           in_warning_zone := false;
           sample_count := 0%Z;
           miss_prob := 0;
           miss_std := 0;
           miss_prob_sd_min := PInf;
           miss_prob_min := PInf;
           miss_sd_min := PInf;
           min_instances := min_num_instances;
           warning_level := warning_level;
           out_control_level := out_control_level;
           estimation := None;
           delay := None |}.

(** Lines 128-135 of [add_element]: the running mean and standard deviation
    with the count before the increment, the increment, and the resets of
    [estimation], the two flags and [delay]. *)
Definition update_stats (self : DDM) (prediction : R) : DDM :=
  let n := IZR (sample_count self) in
  let p := miss_prob self + (prediction - miss_prob self) / n in
  let s := np_sqrt (p * (1 - p) / n) in
  {| in_concept_change := false;
     in_warning_zone := false;
     sample_count := (sample_count self + 1)%Z;
     miss_prob := p;
     miss_std := s;
     miss_prob_sd_min := miss_prob_sd_min self;
     miss_prob_min := miss_prob_min self;
     miss_sd_min := miss_sd_min self;
     min_instances := min_instances self;
     warning_level := warning_level self;
     out_control_level := out_control_level self;
     estimation := Some p;
     delay := Some 0%Z |}.

(** Lines 140-143: the coupled minimum snapshot. *)
Definition track_min (self : DDM) : DDM :=
  if le_x (miss_prob self + miss_std self) (miss_prob_sd_min self)
  then {| in_concept_change := in_concept_change self;
          in_warning_zone := in_warning_zone self;
          sample_count := sample_count self;
          miss_prob := miss_prob self;
          miss_std := miss_std self;
          miss_prob_sd_min := Fin (miss_prob self + miss_std self);
          miss_prob_min := Fin (miss_prob self);
          miss_sd_min := Fin (miss_std self);
          min_instances := min_instances self;
          warning_level := warning_level self;
          out_control_level := out_control_level self;
          estimation := estimation self;
          delay := delay self |}
  else self.

(** Setting the two flags. *)
Definition set_flags (self : DDM) (drift warn : bool) : DDM :=
  {| in_concept_change := drift;
     in_warning_zone := warn;
     sample_count := sample_count self;
     miss_prob := miss_prob self;
     miss_std := miss_std self;
     miss_prob_sd_min := miss_prob_sd_min self;
     miss_prob_min := miss_prob_min self;
     miss_sd_min := miss_sd_min self;
     min_instances := min_instances self;
     warning_level := warning_level self;
     out_control_level := out_control_level self;
     estimation := estimation self;
     delay := delay self |}.

(** Lines 145-154: drift is checked first, the warning in the [elif]. *)
Definition classify (self : DDM) : DDM :=
  let v := miss_prob self + miss_std self in
  if gt_thr v (miss_prob_min self) (out_control_level self) (miss_sd_min self)
  then set_flags self true (in_warning_zone self)
  else if gt_thr v (miss_prob_min self) (warning_level self) (miss_sd_min self)
  then set_flags self (in_concept_change self) true
  else set_flags self (in_concept_change self) false.

(** The pair [add_element] returns. *)
Definition flags (self : DDM) : bool * bool :=
  (in_concept_change self, in_warning_zone self).

(** The lazy reset of lines 125-126. *)
Definition lazy_reset (self : DDM) : DDM :=
  if in_concept_change self then reset self else self.

(** [DDM.add_element] (lines 108-156): the new object state and the returned
    pair [(in_drift, in_warning)]. *)
Definition add_element (self : DDM) (prediction : R) : DDM * (bool * bool) :=
  let self := update_stats (lazy_reset self) prediction in
  if (sample_count self <? min_instances self)%Z
  then (self, flags self)
  else let self := classify (track_min self) in (self, flags self).

(** A caller feeding a sequence of observations one at a time. *)
Fixpoint run (self : DDM) (xs : list R) : DDM * list (bool * bool) :=
  match xs with
  | [] => (self, [])
  | x :: xs' =>
      let '(self1, o) := add_element self x in
      let '(self2, os) := run self1 xs' in
      (self2, o :: os)
  end.

(** ** Spec-side observations of a run *)

(** The minimum of finite values, [+inf] for none; [Rmin] keeps the left value
    on a tie. *)
Definition xmin (v : R) (m : xR) : xR :=
  match m with
  | PInf => Fin v
  | Fin r => Fin (Rmin v r)
  end.

(** The running minimum of a sequence of values, from [m]. *)
Fixpoint min_from (m : xR) (vs : list R) : xR :=
  match vs with
  | [] => m
  | v :: vs' => min_from (xmin v m) vs'
  end.

Definition min_of (vs : list R) : xR := min_from PInf vs.

(** [error_rate + error_std] after each call of a run. *)
Fixpoint sums (self : DDM) (xs : list R) : list R :=
  match xs with
  | [] => []
  | x :: xs' =>
      let self1 := fst (add_element self x) in
      (miss_prob self1 + miss_std self1) :: sums self1 xs'
  end.

(** [error_rate + error_std] after each call of a run that got past the
    warm-up gate of line 137. *)
Fixpoint gated_sums (self : DDM) (xs : list R) : list R :=
  match xs with
  | [] => []
  | x :: xs' =>
      let self1 := fst (add_element self x) in
      if (sample_count self1 <? min_instances self1)%Z
      then gated_sums self1 xs'
      else (miss_prob self1 + miss_std self1) :: gated_sums self1 xs'
  end.

(** No call of a run but possibly the last flags drift, so that no lazy reset
    happens inside the run. *)
Definition no_reset_inside (os : list (bool * bool)) : Prop :=
  Forall (fun o => fst o = false) (removelast os).

(** The observations are bits. *)
Definition bit (x : R) : Prop := x = 0 \/ x = 1.

(** [m <= v] for a minimum [m] and a finite [v]: [inf <= v] is false. *)
Definition min_le (m : xR) (v : R) : Prop :=
  match m with
  | Fin r => r <= v
  | PInf => False
  end.

(** The order on [xR] with [+inf] on top. *)
Definition xle (m m' : xR) : Prop :=
  match m, m' with
  | _, PInf => True
  | PInf, Fin _ => False
  | Fin a, Fin b => a <= b
  end.

(** The three minima are either all [+inf] or a coupled snapshot of one
    call's [miss_prob] and [miss_std]. *)
Definition coupled (self : DDM) : Prop :=
  (miss_prob_sd_min self = PInf /\ miss_prob_min self = PInf /\
   miss_sd_min self = PInf) \/
  (exists a b, miss_prob_sd_min self = Fin (a + b) /\
               miss_prob_min self = Fin a /\ miss_sd_min self = Fin b).

(** A run of one repeated bit [c] from a reset: the drift flag is down, the
    mean is [c] once a call is made, and the minima are unset or the snapshot
    [(c, 0)]. *)
Definition const_inv (c : R) (self : DDM) : Prop :=
  in_concept_change self = false /\
  (miss_prob self = c \/ sample_count self = 1%Z) /\
  ((miss_prob_sd_min self = PInf /\ miss_prob_min self = PInf /\
    miss_sd_min self = PInf) \/
   (miss_prob_sd_min self = Fin c /\ miss_prob_min self = Fin c /\
    miss_sd_min self = Fin 0)).

(** The running mean is a proportion and the count is positive. *)
Definition stats_ok (self : DDM) : Prop :=
  0 <= miss_prob self <= 1 /\ (1 <= sample_count self)%Z.

(** The state of [ddm_new 2 2 3] after the observation 0 (see
    [after_first_zero]). *)
Definition after_zero : DDM :=
  {| in_concept_change := false;
     in_warning_zone := false;
     sample_count := 2%Z;
     miss_prob := 0;
     miss_std := 0;
     miss_prob_sd_min := Fin 0;
     miss_prob_min := Fin 0;
     miss_sd_min := Fin 0;
     min_instances := 2%Z;
     warning_level := 2;
     out_control_level := 3;
     estimation := Some 0;
     delay := Some 0%Z |}.

(** A run of [ddm_new 3 2 3] on the observations 1, 0, 0, 0: one warm-up
    call, then three calls past the gate of line 137.  [demo_s1],
    [demo_s2] and [demo_s3] are the states after the first three calls. *)
Definition demo_obs : list R := [1; 0; 0; 0].

Definition demo_s1 : DDM := fst (add_element (ddm_new 3 2 3) 1).

Definition demo_s2 : DDM := fst (add_element demo_s1 0).

Definition demo_s3 : DDM := fst (add_element demo_s2 0).

(** ** Basic facts *)

Lemma R_ltb_true a b : a < b -> R_ltb a b = true.
Proof. intros H. unfold R_ltb. destruct (Rlt_dec a b); [reflexivity | contradiction]. Qed.

Lemma R_ltb_false a b : ~ a < b -> R_ltb a b = false.
Proof. intros H. unfold R_ltb. destruct (Rlt_dec a b); [contradiction | reflexivity]. Qed.

Lemma R_ltb_spec a b : R_ltb a b = true <-> a < b.
Proof. unfold R_ltb. destruct (Rlt_dec a b); split; congruence || tauto. Qed.

Lemma R_leb_true a b : a <= b -> R_leb a b = true.
Proof. intros H. unfold R_leb. destruct (Rle_dec a b); [reflexivity | contradiction]. Qed.

Lemma R_leb_false a b : ~ a <= b -> R_leb a b = false.
Proof. intros H. unfold R_leb. destruct (Rle_dec a b); [contradiction | reflexivity]. Qed.

Lemma R_leb_spec a b : R_leb a b = true <-> a <= b.
Proof. unfold R_leb. destruct (Rle_dec a b); split; congruence || tauto. Qed.

Lemma flags_add_element self x :
  snd (add_element self x) = flags (fst (add_element self x)).
Proof.
  unfold add_element. destruct (_ <? _)%Z; reflexivity.
Qed.

Lemma reset_flag self : in_concept_change (reset self) = false.
Proof. reflexivity. Qed.

Lemma lazy_reset_reset self : lazy_reset (reset self) = reset self.
Proof. reflexivity. Qed.

(** [track_min] and [classify] touch only the minima and the flags. *)
Lemma track_min_stats self :
  sample_count (track_min self) = sample_count self /\
  miss_prob (track_min self) = miss_prob self /\
  miss_std (track_min self) = miss_std self /\
  min_instances (track_min self) = min_instances self /\
  warning_level (track_min self) = warning_level self /\
  out_control_level (track_min self) = out_control_level self /\
  in_concept_change (track_min self) = in_concept_change self /\
  in_warning_zone (track_min self) = in_warning_zone self.
Proof. unfold track_min. destruct (le_x _ _); repeat split. Qed.

Lemma classify_stats self :
  sample_count (classify self) = sample_count self /\
  miss_prob (classify self) = miss_prob self /\
  miss_std (classify self) = miss_std self /\
  miss_prob_sd_min (classify self) = miss_prob_sd_min self /\
  min_instances (classify self) = min_instances self /\
  warning_level (classify self) = warning_level self /\
  out_control_level (classify self) = out_control_level self.
Proof.
  unfold classify. destruct (gt_thr _ _ _ _); [|destruct (gt_thr _ _ _ _)];
    repeat split.
Qed.

(** The fields of the state after a call, from the state after line 135. *)
Lemma add_element_stats self x :
  let u := update_stats (lazy_reset self) x in
  let self' := fst (add_element self x) in
  sample_count self' = sample_count u /\
  miss_prob self' = miss_prob u /\
  miss_std self' = miss_std u /\
  min_instances self' = min_instances u /\
  warning_level self' = warning_level u /\
  out_control_level self' = out_control_level u.
Proof.
  cbv zeta. unfold add_element.
  destruct (_ <? _)%Z; [repeat split|].
  destruct (classify_stats (track_min (update_stats (lazy_reset self) x)))
    as (H1 & H2 & H3 & _ & H5 & H6 & H7).
  destruct (track_min_stats (update_stats (lazy_reset self) x))
    as (G1 & G2 & G3 & G4 & G5 & G6 & _).
  simpl fst. repeat split; congruence.
Qed.

Lemma lazy_reset_config self :
  min_instances (lazy_reset self) = min_instances self /\
  warning_level (lazy_reset self) = warning_level self /\
  out_control_level (lazy_reset self) = out_control_level self.
Proof. unfold lazy_reset. destruct (in_concept_change self); repeat split. Qed.

(** The state after line 135 depends neither on the two flags nor on
    [estimation] and [delay] of the state it starts from. *)
Lemma update_stats_ext s1 s2 x :
  sample_count s1 = sample_count s2 ->
  miss_prob s1 = miss_prob s2 ->
  miss_std s1 = miss_std s2 ->
  miss_prob_sd_min s1 = miss_prob_sd_min s2 ->
  miss_prob_min s1 = miss_prob_min s2 ->
  miss_sd_min s1 = miss_sd_min s2 ->
  min_instances s1 = min_instances s2 ->
  warning_level s1 = warning_level s2 ->
  out_control_level s1 = out_control_level s2 ->
  update_stats s1 x = update_stats s2 x.
Proof.
  destruct s1, s2; simpl; intros; subst; reflexivity.
Qed.

(** The flags are both down after line 135 and after the minimum tracking. *)
Lemma track_min_update_flags self x :
  in_concept_change (track_min (update_stats self x)) = false /\
  in_warning_zone (track_min (update_stats self x)) = false.
Proof.
  destruct (track_min_stats (update_stats self x)) as (_&_&_&_&_&_&H1&H2).
  rewrite H1, H2. split; reflexivity.
Qed.

(** The flags a classified call ends with. *)
Lemma classify_flags self :
  in_concept_change self = false -> in_warning_zone self = false ->
  flags (classify self) =
  if gt_thr (miss_prob self + miss_std self) (miss_prob_min self)
       (out_control_level self) (miss_sd_min self)
  then (true, false)
  else if gt_thr (miss_prob self + miss_std self) (miss_prob_min self)
            (warning_level self) (miss_sd_min self)
  then (false, true) else (false, false).
Proof.
  intros H1 H2. unfold classify.
  destruct (gt_thr _ _ (out_control_level self) _);
    [|destruct (gt_thr _ _ (warning_level self) _)];
    unfold flags; simpl; rewrite ?H1, ?H2; reflexivity.
Qed.

(** The pair a call returns, read off the state after line 135. *)
Lemma add_element_pair self x :
  let u := update_stats (lazy_reset self) x in
  let t := track_min u in
  snd (add_element self x) =
  if (sample_count u <? min_instances u)%Z then (false, false)
  else if gt_thr (miss_prob t + miss_std t) (miss_prob_min t)
            (out_control_level t) (miss_sd_min t)
  then (true, false)
  else if gt_thr (miss_prob t + miss_std t) (miss_prob_min t)
            (warning_level t) (miss_sd_min t)
  then (false, true) else (false, false).
Proof.
  cbv zeta. unfold add_element.
  destruct (_ <? _)%Z; [reflexivity|].
  destruct (track_min_update_flags (lazy_reset self) x) as [H1 H2].
  exact (classify_flags _ H1 H2).
Qed.

(** ** Claims *)

(** On [min_instances = 2], [warning_level = 2], [out_control_level = 3],
    the first observation 0 is classified with [miss_prob = miss_std = 0] and
    no flag. *)
Lemma after_first_zero : fst (run (ddm_new 2 2 3) [0]) = after_zero.
Proof.
  cbn -[Rplus Rminus Rmult Rdiv IZR sqrt R_ltb R_leb classify].
  unfold np_sqrt.
  replace (1 + (0 - 1) / 1) with 0 by field.
  replace (0 * (1 - 0) / 1) with 0 by field. rewrite sqrt_0.
  unfold classify, gt_thr; cbn -[Rplus Rminus Rmult Rdiv IZR sqrt R_ltb R_leb].
  rewrite !R_ltb_false by lra. unfold after_zero, set_flags; cbn.
  replace (0 + 0) with 0 by ring. reflexivity.
Qed.

(** The next observation 1 gives [miss_prob = 1/2] and a positive
    [miss_std] against the minima 0 and 0: drift. *)
Lemma then_one_drifts : snd (add_element after_zero 1) = (true, false).
Proof.
  rewrite add_element_pair.
  unfold after_zero, track_min, update_stats, le_x, gt_thr, np_sqrt.
  cbn -[Rplus Rminus Rmult Rdiv IZR sqrt R_ltb R_leb].
  replace (0 + (1 - 0) / 2) with (1 / 2) by field.
  assert (Hs : 0 <= sqrt (1 / 2 * (1 - 1 / 2) / 2)) by apply sqrt_pos.
  rewrite R_leb_false by lra. cbn -[Rplus Rminus Rmult Rdiv IZR sqrt R_ltb R_leb].
  rewrite R_ltb_true by lra. reflexivity.
Qed.

(** C5: [in_drift] and [in_warning] are never both true in the pair returned
    by a call of [add_element], whatever the state and the observation. *)
Theorem mutual_exclusion (self : DDM) (x : R) :
  (fst (snd (add_element self x)) && snd (snd (add_element self x)))%bool = false.
Proof.
  rewrite add_element_pair.
  destruct (_ <? _)%Z; [reflexivity|].
  destruct (gt_thr _ _ _ _); [|destruct (gt_thr _ _ _ _)]; reflexivity.
Qed.

(** C10: [add_element] and [reset] leave [min_instances], [warning_level] and
    [out_control_level] as they are, for every state and observation. *)
Theorem config_frame (self : DDM) (x : R) :
  (min_instances (fst (add_element self x)) = min_instances self /\
   warning_level (fst (add_element self x)) = warning_level self /\
   out_control_level (fst (add_element self x)) = out_control_level self) /\
  (min_instances (reset self) = min_instances self /\
   warning_level (reset self) = warning_level self /\
   out_control_level (reset self) = out_control_level self).
Proof.
  destruct (add_element_stats self x) as (_&_&_&H4&H5&H6).
  destruct (lazy_reset_config self) as (L4&L5&L6).
  rewrite H4, H5, H6. simpl. rewrite L4, L5, L6.
  repeat split.
Qed.

(** C4: when a call of [add_element] returns [in_drift = true], the next call
    processes its observation exactly as if [reset] had been called just
    before it: its result (state and pair) is the one from the reset state, in
    which [sample_count] is 1, [miss_prob] 1, [miss_std] 0 and the three minima
    [+inf]. *)
Theorem drift_then_reset (self self' : DDM) (x y : R) (w : bool) :
  add_element self x = (self', (true, w)) ->
  add_element self' y = add_element (reset self') y /\
  lazy_reset self' = reset self' /\
  sample_count (lazy_reset self') = 1%Z /\
  miss_prob (lazy_reset self') = 1 /\
  miss_std (lazy_reset self') = 0 /\
  miss_prob_sd_min (lazy_reset self') = PInf /\
  miss_prob_min (lazy_reset self') = PInf /\
  miss_sd_min (lazy_reset self') = PInf.
Proof.
  intros H.
  assert (Hf : in_concept_change self' = true).
  { pose proof (flags_add_element self x) as E.
    rewrite H in E. simpl in E. unfold flags in E. congruence. }
  assert (Hl : lazy_reset self' = reset self').
  { unfold lazy_reset. rewrite Hf. reflexivity. }
  rewrite Hl. repeat split.
  unfold add_element at 1 2. rewrite Hl, lazy_reset_reset. reflexivity.
Qed.

Lemma drift_then_reset_witness :
  add_element after_zero 1 = (fst (add_element after_zero 1), (true, false)) /\
  add_element (fst (add_element after_zero 1)) 0 =
  add_element (reset (fst (add_element after_zero 1))) 0.
Proof.
  assert (H : add_element after_zero 1 = (fst (add_element after_zero 1), (true, false))).
  { rewrite <- then_one_drifts. apply surjective_pairing. }
  split; [exact H|].
  exact (proj1 (drift_then_reset after_zero (fst (add_element after_zero 1))
                  1 0 false H)).
Defined.

(** C7: a call updates the statistics of the state left by the lazy reset in
    the order of lines 128-130: the mean with the count [n] before the
    increment, then the standard deviation from the new mean and the same [n],
    then the count becomes [n + 1]; after a reset [n] is 1. *)
Theorem update_order (self : DDM) (x : R) :
  let s0 := lazy_reset self in
  let s1 := fst (add_element self x) in
  let n := IZR (sample_count s0) in
  miss_prob s1 = miss_prob s0 + (x - miss_prob s0) / n /\
  miss_std s1 = np_sqrt (miss_prob s1 * (1 - miss_prob s1) / n) /\
  sample_count s1 = (sample_count s0 + 1)%Z /\
  sample_count (lazy_reset (reset self)) = 1%Z.
Proof.
  cbv zeta.
  destruct (add_element_stats self x) as (H1&H2&H3&_).
  rewrite H1, H2, H3. repeat split.
Qed.

(** A call from a reset state gives the same state and pair as the same call
    on a new detector with the same configuration. *)
Lemma add_element_reset_new self x :
  add_element (reset self) x =
  add_element (ddm_new (min_instances self) (warning_level self)
                 (out_control_level self)) x.
Proof.
  unfold add_element. rewrite !lazy_reset_reset.
  unfold ddm_new at 1.
  rewrite (update_stats_ext (reset self)
             (ddm_new (min_instances self) (warning_level self)
                (out_control_level self)) x); reflexivity.
Qed.

(** C8: [reset] is idempotent, and from a reset state every sequence of
    observations yields the same sequence of pairs as from a newly constructed
    detector with the same [min_instances], [warning_level] and
    [out_control_level]. *)
Theorem reset_idempotent (self : DDM) (xs : list R) :
  reset (reset self) = reset self /\
  snd (run (reset self) xs) =
  snd (run (ddm_new (min_instances self) (warning_level self)
              (out_control_level self)) xs).
Proof.
  split; [reflexivity|].
  destruct xs as [|x xs]; [reflexivity|].
  simpl. rewrite add_element_reset_new. reflexivity.
Qed.

(** A call from a state with the drift flag down whose count after the
    increment is still below [min_instances] stops at the warm-up gate. *)
Lemma add_element_warmup self x :
  in_concept_change self = false ->
  (sample_count self + 1 < min_instances self)%Z ->
  add_element self x = (update_stats self x, (false, false)).
Proof.
  intros Hf Hc. unfold add_element, lazy_reset. rewrite Hf.
  replace (sample_count (update_stats self x) <? min_instances (update_stats self x))%Z
    with true by (symmetry; apply Z.ltb_lt; exact Hc).
  reflexivity.
Qed.

(** Calls that all stop at the warm-up gate count the observations and keep
    the drift flag down. *)
Lemma run_warmup xs : forall self,
  in_concept_change self = false ->
  (sample_count self + Z.of_nat (length xs) < min_instances self)%Z ->
  in_concept_change (fst (run self xs)) = false /\
  sample_count (fst (run self xs)) = (sample_count self + Z.of_nat (length xs))%Z /\
  min_instances (fst (run self xs)) = min_instances self.
Proof.
  induction xs as [|x xs IH]; intros self Hf Hc.
  - simpl. rewrite Z.add_0_r. repeat split; assumption.
  - simpl length in Hc. rewrite Nat2Z.inj_succ in Hc.
    simpl run. rewrite (add_element_warmup self x Hf) by lia.
    destruct (IH (update_stats self x)) as (H1 & H2 & H3);
      [reflexivity | simpl; lia |].
    destruct (run (update_stats self x) xs) as [s2 os] eqn:E.
    simpl in *. repeat split; [exact H1 | lia | exact H3].
Qed.

(** The second call after a reset, on [min_instances = 3],
    [warning_level = 1/2], [out_control_level = 1], observations 1 then 0,
    returns [(false, true)]. *)
Lemma second_call_warns :
  snd (add_element (fst (run (reset (ddm_new 3 (1/2) 1)) [1])) 0) = (false, true).
Proof.
  rewrite add_element_pair. cbn -[Rplus Rminus Rmult Rdiv IZR sqrt R_ltb R_leb].
  replace (1 + (1 - 1) / 1 + (0 - (1 + (1 - 1) / 1)) / 2) with (1 / 2) by field.
  unfold np_sqrt.
  assert (Hs : 0 < sqrt (1 / 2 * (1 - 1 / 2) / 2)) by (apply sqrt_lt_R0; lra).
  rewrite R_ltb_false by lra. rewrite R_ltb_true by lra. reflexivity.
Qed.

(** C1 (as amended): counting the calls since the last reset from 1, the
    [i]-th call returns [(false, false)] whenever [i + 1 < min_instances],
    that is whenever [sample_count] after its increment is below
    [min_instances], for every sequence of observations. *)
Theorem warmup_silent (self : DDM) (xs : list R) (x : R) :
  (Z.of_nat (length xs) + 2 < min_instances self)%Z ->
  snd (add_element (fst (run (reset self) xs)) x) = (false, false).
Proof.
  intros Hc.
  destruct (run_warmup xs (reset self)) as (H1 & H2 & H3);
    [reflexivity | cbn [sample_count min_instances reset base_reset]; lia |].
  rewrite (add_element_warmup _ x H1); [reflexivity|].
  rewrite H2, H3. cbn [sample_count min_instances reset base_reset]. lia.
Qed.

Lemma warmup_silent_witness :
  (Z.of_nat (length [0; 1]) + 2 < min_instances (ddm_new 30 2 3))%Z /\
  snd (add_element (fst (run (reset (ddm_new 30 2 3)) [0; 1])) 1) = (false, false).
Proof.
  split; [simpl; lia|].
  apply warmup_silent. simpl. lia.
Defined.

(** C1 as stated fails: with [min_instances = 3], [warning_level = 1/2] and
    [out_control_level = 1], the call at position 2 < 3 after a reset (on
    observations 1 then 0) returns [(false, true)]. *)
Lemma warmup_claim_fails :
  ~ (forall (self : DDM) (xs : list R) (x : R),
       (Z.of_nat (length xs) + 1 < min_instances self)%Z ->
       snd (add_element (fst (run (reset self) xs)) x) = (false, false)).
Proof.
  intros H.
  specialize (H (ddm_new 3 (1/2) 1) [1] 0).
  rewrite second_call_warns in H.
  assert (E : (false, true) = (false, false)) by (apply H; simpl; lia).
  discriminate E.
Qed.

(** ** The invariant for observations in {0, 1} *)

Lemma reset_ok self : stats_ok (reset self).
Proof. unfold stats_ok. simpl. split; [lra | lia]. Qed.

Lemma lazy_reset_ok self : stats_ok self -> stats_ok (lazy_reset self).
Proof.
  intros H. unfold lazy_reset. destruct (in_concept_change self);
    [apply reset_ok | exact H].
Qed.

(** The incremental mean of line 128 stays in [0, 1] on a bit, and the
    argument of the square root of line 129 is non-negative. *)
Lemma mean_step_bounds (p x n : R) :
  0 <= p <= 1 -> 1 <= n -> bit x ->
  let p' := p + (x - p) / n in
  0 <= p' <= 1 /\ 0 <= p' * (1 - p') / n.
Proof.
  intros Hp Hn Hx. cbv zeta.
  assert (Ht : 0 < / n <= 1).
  { split; [apply Rinv_0_lt_compat; lra|].
    rewrite <- Rinv_1. apply Rinv_le_contravar; lra. }
  unfold Rdiv.
  assert (Hb : 0 <= p + (x - p) * / n <= 1).
  { destruct Hx as [-> | ->].
    - replace (p + (0 - p) * / n) with (p * (1 - / n)) by ring.
      split; [apply Rmult_le_pos; lra|].
      rewrite <- (Rmult_1_r 1). apply Rmult_le_compat; lra.
    - replace (p + (1 - p) * / n) with (1 - (1 - p) * (1 - / n)) by ring.
      assert (0 <= (1 - p) * (1 - / n)) by (apply Rmult_le_pos; lra).
      assert ((1 - p) * (1 - / n) <= 1).
      { rewrite <- (Rmult_1_r 1). apply Rmult_le_compat; lra. }
      lra. }
  split; [exact Hb|].
  apply Rmult_le_pos; [apply Rmult_le_pos; lra | lra].
Qed.

Lemma IZR_count_ge_1 self : stats_ok self -> 1 <= IZR (sample_count self).
Proof. intros [_ H]. apply IZR_le in H. exact H. Qed.

Lemma update_stats_ok self x :
  stats_ok self -> bit x -> stats_ok (update_stats self x).
Proof.
  intros H Hx. pose proof (IZR_count_ge_1 self H) as Hn.
  destruct H as [Hp Hc].
  destruct (mean_step_bounds (miss_prob self) x (IZR (sample_count self)) Hp Hn Hx)
    as [Hb _].
  split; [exact Hb | simpl; lia].
Qed.

Lemma add_element_ok self x :
  stats_ok self -> bit x -> stats_ok (fst (add_element self x)).
Proof.
  intros H Hx.
  destruct (add_element_stats self x) as (H1 & H2 & _).
  pose proof (update_stats_ok _ x (lazy_reset_ok self H) Hx) as [Hp Hc].
  split; [rewrite H2; exact Hp | rewrite H1; exact Hc].
Qed.

Lemma run_ok xs : forall self,
  stats_ok self -> Forall bit xs -> stats_ok (fst (run self xs)).
Proof.
  induction xs as [|x xs IH]; intros self H Hxs; [exact H|].
  inversion Hxs as [|? ? Hx Hxs']; subst.
  simpl. destruct (add_element self x) as [s1 o] eqn:E.
  destruct (run s1 xs) as [s2 os] eqn:E2. simpl.
  replace s2 with (fst (run s1 xs)) by (rewrite E2; reflexivity).
  apply IH; [|exact Hxs'].
  replace s1 with (fst (add_element self x)) by (rewrite E; reflexivity).
  apply add_element_ok; assumption.
Qed.

(** C9: when every observation since the last reset is 0 or 1, each call of
    [add_element] takes the square root of a non-negative number, and leaves
    [miss_std >= 0] and [miss_prob] within [0, 1]. *)
Theorem std_nonneg (self : DDM) (xs : list R) (x : R) :
  Forall bit (x :: xs) ->
  let s0 := lazy_reset (fst (run (reset self) xs)) in
  let n := IZR (sample_count s0) in
  let p := miss_prob s0 + (x - miss_prob s0) / n in
  let s1 := fst (add_element (fst (run (reset self) xs)) x) in
  0 <= p * (1 - p) / n /\ 0 <= miss_std s1 /\ 0 <= miss_prob s1 <= 1.
Proof.
  intros Hb. inversion Hb as [|? ? Hx Hxs]; subst. cbv zeta.
  pose proof (lazy_reset_ok _ (run_ok xs (reset self) (reset_ok self) Hxs)) as H0.
  pose proof (IZR_count_ge_1 _ H0) as Hn.
  destruct (mean_step_bounds _ x _ (proj1 H0) Hn Hx) as [Hp Harg].
  destruct (add_element_stats (fst (run (reset self) xs)) x) as (_ & H2 & H3 & _).
  rewrite H2, H3. simpl. unfold np_sqrt.
  split; [exact Harg|]. split; [apply sqrt_pos | exact Hp].
Qed.

Lemma std_nonneg_witness :
  Forall bit [1; 0; 1] /\
  0 <= miss_std (fst (add_element (fst (run (reset (ddm_new 30 2 3)) [0; 1])) 1)).
Proof.
  assert (H : Forall bit [1; 0; 1]).
  { repeat constructor; unfold bit; (left; reflexivity) || (right; reflexivity). }
  split; [exact H|].
  exact (proj1 (proj2 (std_nonneg (ddm_new 30 2 3) [0; 1] 1 H))).
Defined.

(** ** The minimum tracking *)

Lemma run_cons self x xs :
  run self (x :: xs) =
  (fst (run (fst (add_element self x)) xs),
   snd (add_element self x) :: snd (run (fst (add_element self x)) xs)).
Proof.
  simpl. destruct (add_element self x) as [s1 o]. simpl.
  destruct (run s1 xs) as [s2 os]. reflexivity.
Qed.

Lemma run_length xs : forall self, length (snd (run self xs)) = length xs.
Proof.
  induction xs as [|x xs IH]; intros self; [reflexivity|].
  rewrite run_cons. simpl. rewrite IH. reflexivity.
Qed.

(** One step of [track_min] is one step of the running minimum. *)
Lemma track_min_sd_min self :
  miss_prob_sd_min (track_min self) =
  xmin (miss_prob self + miss_std self) (miss_prob_sd_min self).
Proof.
  unfold track_min, xmin, le_x.
  destruct (miss_prob_sd_min self) as [r|] eqn:E; [|reflexivity].
  unfold R_leb, Rmin.
  destruct (Rle_dec (miss_prob self + miss_std self) r); [reflexivity | exact E].
Qed.

(** What a call from a state with the drift flag down makes of [min_sum]. *)
Lemma add_element_sd_min self x :
  in_concept_change self = false ->
  let s1 := fst (add_element self x) in
  miss_prob_sd_min s1 =
  if (sample_count s1 <? min_instances s1)%Z then miss_prob_sd_min self
  else xmin (miss_prob s1 + miss_std s1) (miss_prob_sd_min self).
Proof.
  intros Hf. cbv zeta.
  assert (Hl : lazy_reset self = self) by (unfold lazy_reset; rewrite Hf; reflexivity).
  unfold add_element. rewrite Hl.
  destruct (sample_count (update_stats self x) <? min_instances (update_stats self x))%Z
    eqn:E; simpl fst.
  - rewrite E. reflexivity.
  - destruct (classify_stats (track_min (update_stats self x)))
      as (H1 & H2 & H3 & H4 & H5 & _).
    destruct (track_min_stats (update_stats self x)) as (G1 & G2 & G3 & G4 & _).
    rewrite H1, H5, G1, G4, E, H4, H2, H3, G2, G3, track_min_sd_min.
    reflexivity.
Qed.

Lemma run_sd_min xs : forall self,
  in_concept_change self = false ->
  no_reset_inside (snd (run self xs)) ->
  miss_prob_sd_min (fst (run self xs)) =
  min_from (miss_prob_sd_min self) (gated_sums self xs).
Proof.
  induction xs as [|x xs IH]; intros self Hf Hn; [reflexivity|].
  rewrite (run_cons self x xs) in Hn |- *. simpl gated_sums.
  pose proof (add_element_sd_min self x Hf) as Hs. cbv zeta in Hs.
  destruct xs as [|y ys].
  - simpl. rewrite Hs.
    destruct (_ <? _)%Z; reflexivity.
  - assert (Ho : fst (snd (add_element self x)) = false).
    { unfold no_reset_inside in Hn.
      destruct (snd (run (fst (add_element self x)) (y :: ys))) as [|o os] eqn:E.
      - apply (f_equal (@length _)) in E. rewrite run_length in E. discriminate E.
      - simpl in Hn. inversion Hn; assumption. }
    assert (Hf1 : in_concept_change (fst (add_element self x)) = false).
    { rewrite flags_add_element in Ho. exact Ho. }
    assert (Hn1 : no_reset_inside (snd (run (fst (add_element self x)) (y :: ys)))).
    { unfold no_reset_inside in *.
      destruct (snd (run (fst (add_element self x)) (y :: ys))) as [|o os] eqn:E.
      - constructor.
      - simpl in Hn. inversion Hn; assumption. }
    cbn [fst]. rewrite (IH _ Hf1 Hn1), Hs.
    destruct (_ <? _)%Z; reflexivity.
Qed.

(** The minimum after a call that got past the warm-up gate is at most the
    call's [miss_prob + miss_std]. *)
Lemma add_element_min_le self x :
  let s1 := fst (add_element self x) in
  (min_instances s1 <= sample_count s1)%Z ->
  min_le (miss_prob_sd_min s1) (miss_prob s1 + miss_std s1).
Proof.
  cbv zeta. unfold add_element.
  destruct (sample_count (update_stats (lazy_reset self) x) <?
            min_instances (update_stats (lazy_reset self) x))%Z eqn:E;
    simpl fst; intros Hc.
  - apply Z.ltb_lt in E. lia.
  - destruct (classify_stats (track_min (update_stats (lazy_reset self) x)))
      as (_ & H2 & H3 & H4 & _).
    rewrite H2, H3, H4. unfold track_min.
    destruct (le_x _ _) eqn:L; [simpl; lra|].
    unfold le_x in L.
    destruct (miss_prob_sd_min (update_stats (lazy_reset self) x)) as [r|];
      [|discriminate L].
    cbn [min_le]. unfold R_leb in L.
    destruct (Rle_dec _ r); [discriminate L | lra].
Qed.

(** C2 (as amended): the minimum tracking of lines 140-143 runs only on the
    calls that get past the warm-up gate of line 137 (those whose
    [sample_count] after the increment is at least [min_instances]).  Over any
    run from a reset with no lazy reset inside it and with observations in
    {0, 1} (on which the float computation produces no [nan]), [min_sum]
    ([miss_prob_sd_min]) is the minimum of [miss_prob + miss_std] over those
    calls, and [+inf] while there is none. *)
Theorem min_tracking_gated (self : DDM) (xs : list R) :
  Forall bit xs ->
  no_reset_inside (snd (run (reset self) xs)) ->
  miss_prob_sd_min (fst (run (reset self) xs)) = min_of (gated_sums (reset self) xs).
Proof.
  intros _ Hn. apply run_sd_min; [reflexivity | exact Hn].
Qed.

(** C2 as stated fails: on the default configuration the first observation 0
    gives [miss_prob + miss_std = 0] but leaves [min_sum] at [+inf], since
    the call stops at the warm-up gate before the minimum tracking. *)
Lemma min_tracking_claim_fails :
  ~ (forall (self : DDM) (xs : list R),
       Forall bit xs ->
       no_reset_inside (snd (run (reset self) xs)) ->
       miss_prob_sd_min (fst (run (reset self) xs)) = min_of (sums (reset self) xs)).
Proof.
  intros H.
  specialize (H (ddm_new 30 2 3) [0]).
  assert (E : miss_prob_sd_min (fst (run (reset (ddm_new 30 2 3)) [0])) =
              min_of (sums (reset (ddm_new 30 2 3)) [0])).
  { apply H.
    - constructor; [left; reflexivity | constructor].
    - rewrite run_cons. unfold no_reset_inside. simpl. constructor. }
  simpl in E. discriminate E.
Qed.

(** C3 (as amended): after every call of [add_element] that gets past the
    warm-up gate ([sample_count >= min_instances] after the increment), with
    observations in {0, 1} since the last reset, [min_sum <= error_rate +
    error_std].  Before the gate [min_sum] is [+inf]. *)
Theorem min_le_after_gate (self : DDM) (xs : list R) (x : R) :
  Forall bit (x :: xs) ->
  let s1 := fst (add_element (fst (run (reset self) xs)) x) in
  (min_instances s1 <= sample_count s1)%Z ->
  min_le (miss_prob_sd_min s1) (miss_prob s1 + miss_std s1).
Proof.
  intros _. apply add_element_min_le.
Qed.

Lemma min_le_after_gate_witness :
  let s1 := fst (add_element (fst (run (reset (ddm_new 2 2 3)) [])) 0) in
  Forall bit [0] /\ (min_instances s1 <= sample_count s1)%Z /\
  min_le (miss_prob_sd_min s1) (miss_prob s1 + miss_std s1).
Proof.
  cbv zeta.
  assert (H1 : Forall bit [0]) by (constructor; [left; reflexivity | constructor]).
  assert (H2 : let s1 := fst (add_element (fst (run (reset (ddm_new 2 2 3)) [])) 0) in
               (min_instances s1 <= sample_count s1)%Z).
  { cbv zeta.
    destruct (add_element_stats (fst (run (reset (ddm_new 2 2 3)) [])) 0)
      as (G1 & _ & _ & G4 & _).
    rewrite G1, G4. simpl. lia. }
  split; [exact H1|]. split; [exact H2|].
  exact (min_le_after_gate (ddm_new 2 2 3) [] 0 H1 H2).
Defined.

(** C3 as stated fails: after the first call on the default configuration
    [min_sum] is still [+inf]. *)
Lemma min_le_claim_fails :
  ~ (forall (self : DDM) (xs : list R) (x : R),
       Forall bit (x :: xs) ->
       let s1 := fst (add_element (fst (run (reset self) xs)) x) in
       min_le (miss_prob_sd_min s1) (miss_prob s1 + miss_std s1)).
Proof.
  intros H.
  assert (F := H (ddm_new 30 2 3) [] 0
                 (Forall_cons _ (or_introl eq_refl) (Forall_nil _))).
  simpl in F. exact F.
Qed.

(** ** The warning threshold *)

Lemma track_min_update_config self x :
  let t := track_min (update_stats (lazy_reset self) x) in
  sample_count (update_stats (lazy_reset self) x) = sample_count t /\
  min_instances (update_stats (lazy_reset self) x) = min_instances self /\
  min_instances t = min_instances self /\
  warning_level t = warning_level self /\
  out_control_level t = out_control_level self.
Proof.
  cbv zeta.
  destruct (track_min_stats (update_stats (lazy_reset self) x))
    as (G1 & _ & _ & G4 & G5 & G6 & _).
  destruct (lazy_reset_config self) as (L4 & L5 & L6).
  rewrite G1, G4, G5, G6. simpl. rewrite L4, L5, L6. repeat split.
Qed.

(** C6: the warning test of line 149 is strict.  Let [a] and [b] be
    [miss_prob_min] and [miss_sd_min] after the call's minimum tracking, and
    [v] its [miss_prob + miss_std].  If [v = a + warning_level * b], the call
    returns [in_warning = false]; if the call gets past the warm-up gate and
    [a + warning_level * b < v <= a + out_control_level * b], it returns
    [in_warning = true]. *)
Theorem warning_strict (self : DDM) (x a b : R) :
  let t := track_min (update_stats (lazy_reset self) x) in
  let v := miss_prob t + miss_std t in
  miss_prob_min t = Fin a -> miss_sd_min t = Fin b ->
  (v = a + warning_level self * b -> snd (snd (add_element self x)) = false) /\
  ((min_instances self <= sample_count t)%Z ->
   a + warning_level self * b < v -> v <= a + out_control_level self * b ->
   snd (snd (add_element self x)) = true).
Proof.
  cbv zeta. intros Ha Hb.
  destruct (track_min_update_config self x) as (C1 & C2 & _ & C4 & C5).
  rewrite add_element_pair. cbv zeta.
  rewrite Ha, Hb, C4, C5. unfold gt_thr.
  split.
  - intros Hv.
    destruct (_ <? _)%Z; [reflexivity|].
    destruct (R_ltb _ _); [reflexivity|].
    rewrite R_ltb_false by lra. reflexivity.
  - intros Hc Hw Ho.
    replace (sample_count (update_stats (lazy_reset self) x) <?
             min_instances (update_stats (lazy_reset self) x))%Z with false
      by (symmetry; apply Z.ltb_ge; rewrite C1, C2; exact Hc).
    rewrite R_ltb_false by lra. rewrite R_ltb_true by lra. reflexivity.
Qed.

Lemma warning_strict_witness :
  snd (snd (add_element (ddm_new 2 2 3) 0)) = false /\
  snd (snd (add_element (update_stats (ddm_new 3 (1/2) 1) 1) 0)) = true.
Proof.
  split.
  - set (u := update_stats (ddm_new 2 2 3) 0).
    assert (Hb : miss_std u = 0).
    { unfold u; cbn -[Rplus Rminus Rmult Rdiv IZR sqrt]. unfold np_sqrt.
      replace ((1 + (0 - 1) / 1) * (1 - (1 + (0 - 1) / 1)) / 1) with 0 by field.
      apply sqrt_0. }
    refine (proj1 (warning_strict (ddm_new 2 2 3) 0 (miss_prob u) (miss_std u)
                     eq_refl eq_refl) _).
    change (miss_prob u + miss_std u = miss_prob u + 2 * miss_std u).
    rewrite Hb. ring.
  - set (u := update_stats (update_stats (ddm_new 3 (1/2) 1) 1) 0).
    assert (Hp : miss_prob u = 1 / 2).
    { unfold u; cbn -[Rplus Rminus Rmult Rdiv IZR sqrt]. field. }
    assert (Hs : 0 < miss_std u).
    { unfold u; cbn -[Rplus Rminus Rmult Rdiv IZR sqrt]. unfold np_sqrt.
      replace (1 + (1 - 1) / 1 + (0 - (1 + (1 - 1) / 1)) / 2) with (1 / 2) by field.
      apply sqrt_lt_R0. lra. }
    refine (proj2 (warning_strict (update_stats (ddm_new 3 (1/2) 1) 1) 0
                     (miss_prob u) (miss_std u) eq_refl eq_refl) _ _ _).
    + simpl. lia.
    + change (miss_prob u + 1 / 2 * miss_std u < miss_prob u + miss_std u). lra.
    + change (miss_prob u + miss_std u <= miss_prob u + 1 * miss_std u). lra.
Defined.

(** ** Further properties of the code *)

Lemma classify_rest self :
  miss_prob_min (classify self) = miss_prob_min self /\
  miss_sd_min (classify self) = miss_sd_min self /\
  estimation (classify self) = estimation self /\
  delay (classify self) = delay self.
Proof.
  unfold classify. destruct (gt_thr _ _ _ _); [|destruct (gt_thr _ _ _ _)];
    repeat split.
Qed.

Lemma track_min_rest self :
  estimation (track_min self) = estimation self /\
  delay (track_min self) = delay self.
Proof. unfold track_min. destruct (le_x _ _); split; reflexivity. Qed.

Lemma track_min_coupled self : coupled self -> coupled (track_min self).
Proof.
  intros H. unfold track_min.
  destruct (le_x _ _); [|exact H].
  right. simpl. eexists; eexists; repeat split.
Qed.

Lemma lazy_reset_coupled self : coupled self -> coupled (lazy_reset self).
Proof.
  intros H. unfold lazy_reset. destruct (in_concept_change self); [|exact H].
  left. repeat split.
Qed.

Lemma add_element_rest self x :
  let u := update_stats (lazy_reset self) x in
  let s1 := fst (add_element self x) in
  estimation s1 = estimation u /\ delay s1 = delay u /\
  (coupled self -> coupled s1).
Proof.
  cbv zeta.
  assert (Hu : coupled self -> coupled (update_stats (lazy_reset self) x)).
  { intros H. apply lazy_reset_coupled in H. exact H. }
  unfold add_element.
  destruct (_ <? _)%Z; simpl fst; [repeat split; auto|].
  destruct (classify_rest (track_min (update_stats (lazy_reset self) x)))
    as (C1 & C2 & C3 & C4).
  destruct (classify_stats (track_min (update_stats (lazy_reset self) x)))
    as (_ & _ & _ & C0 & _).
  destruct (track_min_rest (update_stats (lazy_reset self) x)) as (T3 & T4).
  rewrite C3, C4, T3, T4. split; [reflexivity|]. split; [reflexivity|].
  intros H. apply Hu, track_min_coupled in H.
  unfold coupled in *. rewrite C0, C1, C2. exact H.
Qed.

Lemma run_coupled xs : forall self, coupled self -> coupled (fst (run self xs)).
Proof.
  induction xs as [|x xs IH]; intros self H; [exact H|].
  rewrite run_cons. cbn [fst]. apply IH.
  destruct (add_element_rest self x) as (_ & _ & Hc). exact (Hc H).
Qed.

(** X1: on every run from a reset (lazy resets included), the three minima
    are either all [+inf] or [Fin (a + b)], [Fin a], [Fin b]: [min_sum] is
    always [min_error_rate + min_std] of one snapshot, and a finite
    [miss_prob_min] never meets an infinite [miss_sd_min]. *)
Theorem minima_coupled (self : DDM) (xs : list R) :
  coupled (fst (run (reset self) xs)).
Proof.
  apply run_coupled. left. repeat split.
Qed.

Lemma xle_refl m : xle m m.
Proof. destruct m; simpl; [apply Rle_refl | exact I]. Qed.

(** X3: between resets [min_sum] never increases: a call from a state whose
    drift flag is down leaves [miss_prob_sd_min] at most where it was. *)
Theorem min_sum_nonincreasing (self : DDM) (x : R) :
  in_concept_change self = false ->
  xle (miss_prob_sd_min (fst (add_element self x))) (miss_prob_sd_min self).
Proof.
  intros Hf. rewrite (add_element_sd_min self x Hf).
  destruct (_ <? _)%Z; [apply xle_refl|].
  destruct (miss_prob_sd_min self) as [r|]; simpl; [apply Rmin_r | exact I].
Qed.

(** A call that reaches a new minimum raises no flag when both levels are
    at least 1. *)
Lemma new_minimum_pair (self : DDM) (x : R) :
  1 <= warning_level self -> 1 <= out_control_level self ->
  let u := update_stats (lazy_reset self) x in
  le_x (miss_prob u + miss_std u) (miss_prob_sd_min u) = true ->
  snd (add_element self x) = (false, false).
Proof.
  intros Hw Ho. cbv zeta. intros L.
  destruct (lazy_reset_config self) as (_ & L5 & L6).
  rewrite add_element_pair. cbv zeta.
  destruct (_ <? _)%Z; [reflexivity|].
  set (u := update_stats (lazy_reset self) x) in *.
  assert (Hs : 0 <= miss_std u) by (unfold u; simpl; apply sqrt_pos).
  assert (W : warning_level u = warning_level self) by (unfold u; simpl; exact L5).
  assert (O : out_control_level u = out_control_level self)
    by (unfold u; simpl; exact L6).
  unfold track_min. rewrite L. cbn [miss_prob miss_std miss_prob_min miss_sd_min
    warning_level out_control_level gt_thr].
  rewrite W, O.
  assert (1 * miss_std u <= out_control_level self * miss_std u)
    by (apply Rmult_le_compat_r; lra).
  assert (1 * miss_std u <= warning_level self * miss_std u)
    by (apply Rmult_le_compat_r; lra).
  rewrite !R_ltb_false by lra. reflexivity.
Qed.

(** ** The run of [ddm_new 3 2 3] on [demo_obs] *)

Lemma demo_s1_eq : demo_s1 = fst (add_element (ddm_new 3 2 3) 1).
Proof. unfold demo_s1. reflexivity. Qed.
Lemma demo_s2_eq : demo_s2 = fst (add_element demo_s1 0).
Proof. unfold demo_s2. reflexivity. Qed.
Lemma demo_s3_eq : demo_s3 = fst (add_element demo_s2 0).
Proof. unfold demo_s3. reflexivity. Qed.

Lemma update_stats_sd_min self x :
  miss_prob_sd_min (update_stats self x) = miss_prob_sd_min self.
Proof. destruct self. reflexivity. Qed.

(** Between resets each call adds one to [sample_count]. *)
Lemma add_element_count self x :
  in_concept_change self = false ->
  sample_count (fst (add_element self x)) = (sample_count self + 1)%Z /\
  min_instances (fst (add_element self x)) = min_instances self.
Proof.
  intros Hf. destruct (add_element_stats self x) as (A1 & _ & _ & A4 & _).
  cbv zeta in A1, A4. rewrite A1, A4.
  unfold lazy_reset. rewrite Hf. split; reflexivity.
Qed.

(** The first three calls of the run return [(false, false)], and the
    minimum tracked after the second and the third call. *)
Lemma demo_run :
  snd (add_element (ddm_new 3 2 3) 1) = (false, false) /\
  snd (add_element demo_s1 0) = (false, false) /\
  snd (add_element demo_s2 0) = (false, false) /\
  in_concept_change demo_s1 = false /\
  in_concept_change demo_s2 = false /\
  in_concept_change demo_s3 = false /\
  sample_count demo_s1 = 2%Z /\ min_instances demo_s1 = 3%Z /\
  miss_prob_sd_min demo_s2 = Fin (1 / 2 + sqrt (1 / 8)) /\
  miss_prob_sd_min demo_s3 = Fin (1 / 3 + sqrt (2 / 27)).
Proof.
  assert (E1 : add_element (ddm_new 3 2 3) 1 = (update_stats (ddm_new 3 2 3) 1, (false, false)))
    by (apply add_element_warmup; [reflexivity | simpl; lia]).
  assert (D1 : demo_s1 = update_stats (ddm_new 3 2 3) 1)
    by (rewrite demo_s1_eq, E1; reflexivity).
  assert (P1 : snd (add_element demo_s1 0) = (false, false)).
  { apply new_minimum_pair; [rewrite D1; simpl; lra | rewrite D1; simpl; lra |].
    rewrite D1. reflexivity. }
  assert (F1 : in_concept_change demo_s1 = false) by (rewrite D1; reflexivity).
  assert (F2 : in_concept_change demo_s2 = false).
  { rewrite demo_s2_eq. pose proof (flags_add_element demo_s1 0) as E. rewrite P1 in E.
    unfold flags in E. congruence. }
  destruct (add_element_stats demo_s1 0) as (A1 & A2 & A3 & A4 & A5 & A6).
  cbv zeta in A1, A2, A3, A4, A5, A6.
  rewrite <- demo_s2_eq in A1, A2, A3, A4, A5, A6.
  assert (L1 : lazy_reset demo_s1 = demo_s1) by (unfold lazy_reset; rewrite F1; reflexivity).
  rewrite L1 in A1, A2, A3, A4, A5, A6.
  assert (C2 : sample_count demo_s2 = 3%Z) by (rewrite A1, D1; reflexivity).
  assert (M2 : min_instances demo_s2 = 3%Z) by (rewrite A4, D1; reflexivity).
  assert (Q2 : miss_prob demo_s2 = 1 / 2) by (rewrite A2, D1; simpl; field).
  assert (S2 : miss_std demo_s2 = sqrt (1 / 8)).
  { rewrite A3, D1. simpl. unfold np_sqrt. f_equal. field. }
  assert (D2 : miss_prob_sd_min demo_s2 = Fin (1 / 2 + sqrt (1 / 8))).
  { pose proof (add_element_sd_min demo_s1 0 F1) as E. cbv zeta in E.
    rewrite <- demo_s2_eq in E.
    rewrite E, C2, M2, Q2, S2, D1. reflexivity. }
  assert (L2 : lazy_reset demo_s2 = demo_s2) by (unfold lazy_reset; rewrite F2; reflexivity).
  set (u3 := update_stats (lazy_reset demo_s2) 0).
  assert (Q3 : miss_prob u3 = 1 / 3).
  { unfold u3. rewrite L2. unfold update_stats. cbn [miss_prob sample_count].
    rewrite Q2, C2. field. }
  assert (S3 : miss_std u3 = sqrt (2 / 27)).
  { replace (miss_std u3) with (np_sqrt (miss_prob u3 * (1 - miss_prob u3) /
                                   IZR (sample_count (lazy_reset demo_s2)))) by reflexivity.
    rewrite Q3, L2, C2. unfold np_sqrt. f_equal. field. }
  assert (C3 : sample_count u3 = 4%Z) by (unfold u3; rewrite L2; unfold update_stats;
    cbn [sample_count]; rewrite C2; reflexivity).
  assert (M3 : min_instances u3 = 3%Z) by (unfold u3; rewrite L2; unfold update_stats;
    cbn [min_instances]; exact M2).
  assert (Hsq : sqrt (2 / 27) <= sqrt (1 / 8)) by (apply sqrt_le_1_alt; lra).
  assert (P3 : snd (add_element demo_s2 0) = (false, false)).
  { apply new_minimum_pair; [rewrite A5, D1; simpl; lra | rewrite A6, D1; simpl; lra |].
    cbv zeta. fold u3. rewrite Q3, S3.
    unfold u3. rewrite update_stats_sd_min, L2, D2. cbn [le_x]. apply R_leb_true. lra. }
  assert (F3 : in_concept_change demo_s3 = false).
  { rewrite demo_s3_eq. pose proof (flags_add_element demo_s2 0) as E. rewrite P3 in E.
    unfold flags in E. congruence. }
  destruct (add_element_stats demo_s2 0) as (B1 & B2 & B3 & B4 & _).
  cbv zeta in B1, B2, B3, B4.
  rewrite <- demo_s3_eq in B1, B2, B3, B4. fold u3 in B1, B2, B3, B4.
  assert (D3 : miss_prob_sd_min demo_s3 = Fin (1 / 3 + sqrt (2 / 27))).
  { pose proof (add_element_sd_min demo_s2 0 F2) as E. cbv zeta in E.
    rewrite <- demo_s3_eq in E.
    rewrite E, B1, B4, B2, B3, Q3, S3, D2, C3, M3.
    cbn [Z.ltb Z.compare Pos.compare Pos.compare_cont xmin].
    rewrite Rmin_left by lra. reflexivity. }
  split; [rewrite E1; reflexivity|].
  split; [exact P1|]. split; [exact P3|].
  split; [exact F1|]. split; [exact F2|]. split; [exact F3|].
  split; [rewrite D1; reflexivity|]. split; [rewrite D1; reflexivity|].
  split; [exact D2 | exact D3].
Qed.

Lemma reset_demo : reset (ddm_new 3 2 3) = ddm_new 3 2 3.
Proof. reflexivity. Qed.

Lemma min_tracking_gated_witness :
  Forall bit demo_obs /\
  no_reset_inside (snd (run (reset (ddm_new 3 2 3)) demo_obs)) /\
  length (gated_sums (reset (ddm_new 3 2 3)) demo_obs) = 3%nat /\
  miss_prob_sd_min (fst (run (reset (ddm_new 3 2 3)) demo_obs)) =
  min_of (gated_sums (reset (ddm_new 3 2 3)) demo_obs).
Proof.
  destruct demo_run as (P1 & P2 & P3 & F1 & F2 & F3 & C1 & M1 & _).
  assert (H1 : Forall bit demo_obs)
    by (unfold demo_obs, bit; repeat constructor; lra).
  assert (H2 : no_reset_inside (snd (run (reset (ddm_new 3 2 3)) demo_obs))).
  { rewrite reset_demo. unfold demo_obs.
    rewrite (run_cons (ddm_new 3 2 3) 1), <- demo_s1_eq.
    rewrite (run_cons demo_s1 0), <- demo_s2_eq.
    rewrite (run_cons demo_s2 0), <- demo_s3_eq.
    rewrite (run_cons demo_s3 0). cbn [snd fst run].
    unfold no_reset_inside. cbn [removelast].
    rewrite P1, P2, P3. repeat constructor. }
  split; [exact H1|]. split; [exact H2|]. split.
  - rewrite reset_demo. unfold demo_obs.
    cbn [gated_sums]. rewrite <- demo_s1_eq, <- demo_s2_eq, <- demo_s3_eq.
    destruct (add_element_count demo_s1 0 F1) as [K2 N2]. rewrite <- demo_s2_eq in K2, N2.
    destruct (add_element_count demo_s2 0 F2) as [K3 N3]. rewrite <- demo_s3_eq in K3, N3.
    destruct (add_element_count demo_s3 0 F3) as [K4 N4].
    rewrite K4, N4, K3, N3, K2, N2, C1, M1. reflexivity.
  - exact (min_tracking_gated (ddm_new 3 2 3) demo_obs H1 H2).
Defined.

Lemma min_sum_nonincreasing_witness :
  in_concept_change demo_s2 = false /\
  miss_prob_sd_min demo_s2 = Fin (1 / 2 + sqrt (1 / 8)) /\
  miss_prob_sd_min (fst (add_element demo_s2 0)) = Fin (1 / 3 + sqrt (2 / 27)) /\
  1 / 3 + sqrt (2 / 27) < 1 / 2 + sqrt (1 / 8) /\
  xle (miss_prob_sd_min (fst (add_element demo_s2 0))) (miss_prob_sd_min demo_s2).
Proof.
  destruct demo_run as (_ & _ & _ & _ & F2 & _ & _ & _ & D2 & D3).
  rewrite <- demo_s3_eq.
  split; [exact F2|]. split; [exact D2|]. split; [exact D3|]. split.
  - assert (sqrt (2 / 27) < sqrt (1 / 8)) by (apply sqrt_lt_1_alt; lra). lra.
  - rewrite demo_s3_eq. exact (min_sum_nonincreasing demo_s2 0 F2).
Defined.

(** X4: when [warning_level] and [out_control_level] are at least 1, a call
    whose [miss_prob + miss_std] reaches a new minimum (the test of line 140
    holds) returns [(false, false)]. *)
Theorem new_minimum_silent (self : DDM) (x : R) :
  1 <= warning_level self -> 1 <= out_control_level self ->
  let u := update_stats (lazy_reset self) x in
  le_x (miss_prob u + miss_std u) (miss_prob_sd_min u) = true ->
  snd (add_element self x) = (false, false).
Proof. exact (new_minimum_pair self x). Qed.

Lemma new_minimum_silent_witness :
  1 <= warning_level (ddm_new 2 2 3) /\ 1 <= out_control_level (ddm_new 2 2 3) /\
  snd (add_element (ddm_new 2 2 3) 0) = (false, false).
Proof.
  assert (H1 : 1 <= warning_level (ddm_new 2 2 3)) by (simpl; lra).
  assert (H2 : 1 <= out_control_level (ddm_new 2 2 3)) by (simpl; lra).
  split; [exact H1|]. split; [exact H2|].
  exact (new_minimum_silent (ddm_new 2 2 3) 0 H1 H2 eq_refl).
Defined.

Lemma no_reset_inside_cons self x y ys :
  no_reset_inside (snd (run self (x :: y :: ys))) ->
  in_concept_change (fst (add_element self x)) = false /\
  no_reset_inside (snd (run (fst (add_element self x)) (y :: ys))).
Proof.
  rewrite (run_cons self x). cbn [snd]. unfold no_reset_inside.
  destruct (snd (run (fst (add_element self x)) (y :: ys))) as [|o os] eqn:E.
  - apply (f_equal (@length _)) in E. rewrite run_length in E. discriminate E.
  - simpl. intros Hn. inversion Hn as [|? ? Ho Hos]; subst.
    split; [|exact Hos].
    rewrite flags_add_element in Ho. exact Ho.
Qed.

(** One call from a state with the drift flag down adds the observation to
    [miss_prob * (sample_count - 1)]. *)
Lemma add_element_sum self x :
  in_concept_change self = false -> (1 <= sample_count self)%Z ->
  let s1 := fst (add_element self x) in
  sample_count s1 = (sample_count self + 1)%Z /\
  miss_prob s1 * IZR (sample_count s1 - 1) =
  miss_prob self * IZR (sample_count self - 1) + x.
Proof.
  intros Hf Hc. cbv zeta.
  assert (Hl : lazy_reset self = self) by (unfold lazy_reset; rewrite Hf; reflexivity).
  destruct (add_element_stats self x) as (H1 & H2 & _).
  rewrite H1, H2, Hl. simpl.
  split; [reflexivity|].
  rewrite Z.add_simpl_r, minus_IZR.
  assert (Hn : IZR (sample_count self) <> 0).
  { apply not_0_IZR. lia. }
  field. exact Hn.
Qed.

Lemma run_sum xs : forall self,
  in_concept_change self = false -> (1 <= sample_count self)%Z ->
  no_reset_inside (snd (run self xs)) ->
  sample_count (fst (run self xs)) = (sample_count self + Z.of_nat (length xs))%Z /\
  miss_prob (fst (run self xs)) * IZR (sample_count (fst (run self xs)) - 1) =
  miss_prob self * IZR (sample_count self - 1) + fold_right Rplus 0 xs.
Proof.
  induction xs as [|x xs IH]; intros self Hf Hc Hn.
  - simpl. split; [lia | ring].
  - rewrite (run_cons self x xs). cbn [fst].
    destruct (add_element_sum self x Hf Hc) as [S1 S2].
    destruct xs as [|y ys].
    + cbn [run fst length fold_right]. rewrite S2, S1. split; [lia | ring].
    + destruct (no_reset_inside_cons self x y ys Hn) as [Hf1 Hn1].
      destruct (IH _ Hf1 ltac:(rewrite S1; lia) Hn1) as [T1 T2].
      rewrite T2, T1, S2, S1. simpl (length _). rewrite Nat2Z.inj_succ.
      split; [lia|]. simpl fold_right. ring.
Qed.

(** The standard deviation after a call is the Bernoulli one of its mean over
    [sample_count - 1], the count before the increment. *)
Lemma add_element_std self x :
  let s1 := fst (add_element self x) in
  miss_std s1 = np_sqrt (miss_prob s1 * (1 - miss_prob s1) / IZR (sample_count s1 - 1)).
Proof.
  cbv zeta.
  destruct (add_element_stats self x) as (H1 & H2 & H3 & _).
  rewrite H1, H2, H3. simpl. rewrite Z.add_simpl_r. reflexivity.
Qed.

Lemma run_std xs : forall self, xs <> [] ->
  let d := fst (run self xs) in
  miss_std d = np_sqrt (miss_prob d * (1 - miss_prob d) / IZR (sample_count d - 1)).
Proof.
  induction xs as [|x xs IH]; intros self Hne; [contradiction|].
  cbv zeta. rewrite (run_cons self x xs). cbn [fst].
  destruct xs as [|y ys].
  - apply add_element_std.
  - apply IH. discriminate.
Qed.

(** X5: over a run of [k] calls from a reset with no lazy reset inside it,
    [sample_count] is [k + 1], [miss_prob] is the mean of the [k]
    observations ([miss_prob * k] is their sum), and when [k > 0] [miss_std]
    is [sqrt (miss_prob * (1 - miss_prob) / k)]. *)
Theorem running_mean (self : DDM) (xs : list R) :
  no_reset_inside (snd (run (reset self) xs)) ->
  let d := fst (run (reset self) xs) in
  sample_count d = (1 + Z.of_nat (length xs))%Z /\
  miss_prob d * IZR (Z.of_nat (length xs)) = fold_right Rplus 0 xs /\
  (xs <> [] ->
   miss_std d = np_sqrt (miss_prob d * (1 - miss_prob d) / IZR (Z.of_nat (length xs)))).
Proof.
  intros Hn. cbv zeta.
  destruct (run_sum xs (reset self) eq_refl ltac:(simpl; lia) Hn) as [T1 T2].
  cbn [sample_count miss_prob reset base_reset] in T1, T2.
  assert (E : (sample_count (fst (run (reset self) xs)) - 1)%Z = Z.of_nat (length xs))
    by lia.
  rewrite E in T2.
  split; [exact T1|]. split; [rewrite T2; simpl; ring|].
  intros Hne. rewrite (run_std xs (reset self) Hne). rewrite E. reflexivity.
Qed.

Lemma running_mean_witness :
  no_reset_inside (snd (run (reset (ddm_new 30 2 3)) [1; 0; 1])) /\
  miss_prob (fst (run (reset (ddm_new 30 2 3)) [1; 0; 1])) * IZR (Z.of_nat 3) =
  fold_right Rplus 0 [1; 0; 1].
Proof.
  assert (H : no_reset_inside (snd (run (reset (ddm_new 30 2 3)) [1; 0; 1]))).
  { unfold no_reset_inside. simpl. repeat constructor. }
  split; [exact H|].
  exact (proj1 (proj2 (running_mean (ddm_new 30 2 3) [1; 0; 1] H))).
Defined.

(** One call on the repeated bit keeps [const_inv] and returns no flag. *)
Lemma add_element_const c self :
  bit c -> const_inv c self ->
  snd (add_element self c) = (false, false) /\ const_inv c (fst (add_element self c)).
Proof.
  intros Hb (Hf & Hpc & Hm).
  assert (Hl : lazy_reset self = self) by (unfold lazy_reset; rewrite Hf; reflexivity).
  set (u := update_stats self c).
  assert (Hp : miss_prob u = c).
  { unfold u, update_stats. cbn [miss_prob sample_count].
    destruct Hpc as [-> | ->]; [unfold Rdiv; ring | field]. }
  assert (Hs : miss_std u = 0).
  { replace (miss_std u)
      with (np_sqrt (miss_prob u * (1 - miss_prob u) / IZR (sample_count self)))
      by reflexivity.
    rewrite Hp. unfold np_sqrt. rewrite <- sqrt_0. f_equal.
    destruct Hb as [-> | ->]; unfold Rdiv; ring. }
  assert (Hv : miss_prob u + miss_std u = c) by (rewrite Hp, Hs; ring).
  assert (Mu : miss_prob_sd_min u = miss_prob_sd_min self /\
               miss_prob_min u = miss_prob_min self /\
               miss_sd_min u = miss_sd_min self) by (repeat split).
  (* the state after the minimum tracking *)
  assert (Ht : miss_prob_sd_min (track_min u) = Fin c /\
               miss_prob_min (track_min u) = Fin c /\
               miss_sd_min (track_min u) = Fin 0).
  { unfold track_min. rewrite Hv.
    destruct Mu as (M1 & M2 & M3).
    destruct Hm as [(E1 & _ & _) | (E1 & _ & _)]; rewrite M1, E1; cbn [le_x].
    - cbn [miss_prob_sd_min miss_prob_min miss_sd_min].
      rewrite Hp, Hs. repeat split.
    - rewrite R_leb_true by lra.
      cbn [miss_prob_sd_min miss_prob_min miss_sd_min].
      rewrite Hp, Hs. repeat split. }
  destruct (track_min_stats u) as (_ & T2 & T3 & _).
  assert (Hg : gt_thr (miss_prob (track_min u) + miss_std (track_min u))
                 (miss_prob_min (track_min u)) (out_control_level (track_min u))
                 (miss_sd_min (track_min u)) = false /\
               gt_thr (miss_prob (track_min u) + miss_std (track_min u))
                 (miss_prob_min (track_min u)) (warning_level (track_min u))
                 (miss_sd_min (track_min u)) = false).
  { destruct Ht as (_ & H2 & H3). rewrite T2, T3, Hv, H2, H3. cbn [gt_thr].
    split; apply R_ltb_false; rewrite Rmult_0_r, Rplus_0_r; apply Rlt_irrefl. }
  assert (Hpair : snd (add_element self c) = (false, false)).
  { rewrite add_element_pair, Hl. fold u. cbv zeta.
    destruct (_ <? _)%Z; [reflexivity|].
    destruct Hg as [G1 G2]. rewrite G1, G2. reflexivity. }
  split; [exact Hpair|].
  destruct (add_element_stats self c) as (_ & P1 & _).
  rewrite Hl in P1. fold u in P1.
  split; [|split].
  - pose proof (flags_add_element self c) as F. rewrite Hpair in F.
    unfold flags in F. congruence.
  - left. rewrite P1. exact Hp.
  - unfold add_element. rewrite Hl. fold u.
    destruct (_ <? _)%Z; cbn [fst].
    + destruct Mu as (M1 & M2 & M3). rewrite M1, M2, M3. exact Hm.
    + right.
      destruct (classify_rest (track_min u)) as (C1 & C2 & _).
      destruct (classify_stats (track_min u)) as (_ & _ & _ & C0 & _).
      rewrite C0, C1, C2. exact Ht.
Qed.

Lemma run_const c n : forall self,
  bit c -> const_inv c self ->
  Forall (fun o => o = (false, false)) (snd (run self (repeat c n))).
Proof.
  induction n as [|n IH]; intros self Hb H; [constructor|].
  simpl repeat. rewrite run_cons. cbn [snd].
  destruct (add_element_const c self Hb H) as [H1 H2].
  constructor; [exact H1 | apply IH; assumption].
Qed.

(** X6: whatever the configuration, a stream that repeats one bit (only
    correct predictions, or only errors) from a reset never returns a warning
    or a drift. *)
Theorem constant_stream_silent (self : DDM) (c : R) (n : nat) :
  bit c -> Forall (fun o => o = (false, false)) (snd (run (reset self) (repeat c n))).
Proof.
  intros Hb. apply run_const; [exact Hb|].
  split; [reflexivity|]. split; [right; reflexivity|]. left. repeat split.
Qed.

Lemma constant_stream_silent_witness :
  bit 1 /\ Forall (fun o => o = (false, false))
             (snd (run (reset (ddm_new 2 (1/2) 1)) (repeat 1 5))).
Proof.
  assert (H : bit 1) by (right; reflexivity).
  split; [exact H|].
  exact (constant_stream_silent (ddm_new 2 (1/2) 1) 1 5 H).
Defined.

(** X7: when the minimum snapshot after the call's tracking has
    [miss_sd_min = 0] (as after a prefix of only correct predictions), a call
    past the warm-up gate whose [miss_prob + miss_std] exceeds
    [miss_prob_min] returns drift, for every finite [out_control_level]
    (the levels are reals here; at [float('inf')] the product
    [out_control_level * miss_sd_min] is [inf * 0 = nan] and line 145 fails). *)
Theorem zero_std_minimum_drift (self : DDM) (x a : R) :
  let u := update_stats (lazy_reset self) x in
  let t := track_min u in
  (min_instances self <= sample_count u)%Z ->
  miss_prob_min t = Fin a -> miss_sd_min t = Fin 0 ->
  a < miss_prob t + miss_std t ->
  snd (add_element self x) = (true, false).
Proof.
  cbv zeta. intros Hc Ha Hb Hv.
  destruct (track_min_update_config self x) as (_ & C2 & _ & _ & _).
  rewrite add_element_pair. cbv zeta.
  replace (sample_count (update_stats (lazy_reset self) x) <?
           min_instances (update_stats (lazy_reset self) x))%Z with false
    by (symmetry; apply Z.ltb_ge; rewrite C2; exact Hc).
  rewrite Ha, Hb. cbn [gt_thr].
  rewrite R_ltb_true by (rewrite Rmult_0_r, Rplus_0_r; exact Hv).
  reflexivity.
Qed.

Lemma zero_std_minimum_drift_witness :
  snd (add_element after_zero 1) = (true, false).
Proof.
  set (u := update_stats (lazy_reset after_zero) 1).
  assert (Hp : miss_prob u = 1 / 2) by (unfold u; simpl; field).
  assert (Hs : 0 <= miss_std u) by (unfold u; simpl; apply sqrt_pos).
  assert (Ht : track_min u = u).
  { unfold track_min.
    replace (miss_prob_sd_min u) with (Fin 0) by reflexivity.
    cbn [le_x]. rewrite R_leb_false by lra. reflexivity. }
  apply (zero_std_minimum_drift after_zero 1 0); fold u; rewrite ?Ht.
  - simpl. lia.
  - reflexivity.
  - reflexivity.
  - lra.
Defined.
